(** * cc_osconfig: the osconfig cloud-config module

    A shallow embedding of [cloudinit/config/cc_osconfig.py].  The module
    reads the [osconfig] section of a cloud-config document, makes sure the
    osconfig agent is installed, overlays a few keys on the agent's JSON
    configuration file and restarts the agent around the write.

    Python values are an inductive type, dictionaries are [gmap string value],
    and the calls that leave the module (logging, [subp.which],
    [distro.install_packages], [util.load_text_file], [util.load_json],
    [distro.manage_service], [write_json]) are primitives of a small
    trace-and-exception monad whose answers come from a host record. *)

From Stdlib Require Import ZArith.
From stdpp Require Import gmap strings list fin_maps.

Local Set Warnings "-register-all".
Open Scope string_scope.
Open Scope Z_scope.

(** ** Python values *)

(** The values a YAML cloud-config document or a JSON file can hold
    (floating-point numbers, which none of the module's examples use, are
    left out). *)
Inductive value : Type :=
| VNone
| VBool (b : bool)
| VInt (z : Z)
| VStr (s : string)
| VList (l : list value)
| VDict (d : gmap string value).

(** Python's truth test, as applied by [if x:]. *)
Definition truthy (v : value) : bool :=
  match v with
  | VNone => false
  | VBool b => b
  | VInt z => negb (z =? 0)
  | VStr s => negb (String.eqb s "")
  | VList l => negb (Nat.eqb (length l) 0)
  | VDict d => negb (Nat.eqb (size d) 0)
  end.

(** ** Exceptions *)

(** The exceptions that can leave [handle].  [AttributeError] and
    [TypeError] are raised by the module's own dictionary operations; the
    others come from the collaborators, which choose them freely. *)
Inductive exn : Type :=
| AttributeError (msg : string)
| TypeError (msg : string)
| ValueError (msg : string)
| OSError (msg : string)
| ProcessExecutionError (msg : string).

(** A computation without effects that may raise. *)
Definition result (A : Type) : Type := (exn + A)%type.

Definition rbind {A B : Type} (r : result A) (k : A -> result B) : result B :=
  match r with
  | inl e => inl e
  | inr a => k a
  end.

Notation "'let?' x ':=' r 'in' k" := (rbind r (fun x => k))
  (at level 10, x name, r at level 100, k at level 200).

(** The name Python prints for the type of a value. *)
Definition type_name (v : value) : string :=
  match v with
  | VNone => "NoneType"
  | VBool _ => "bool"
  | VInt _ => "int"
  | VStr _ => "str"
  | VList _ => "list"
  | VDict _ => "dict"
  end.

(** [v.get(k)]: a dictionary answers [None] for a missing key; no other
    value of the model has a [get] attribute. *)
Definition dict_get (v : value) (k : string) : result value :=
  match v with
  | VDict d => inr (default VNone (d !! k))
  | _ => inl (AttributeError ("'" ++ type_name v ++ "' object has no attribute 'get'"))
  end.

(** [v[k] = x] with a string [k]: a dictionary takes the binding, a list
    rejects the subscript, the other values reject the assignment. *)
Definition dict_setitem (v : value) (k : string) (x : value) : result value :=
  match v with
  | VDict d => inr (VDict (<[k := x]> d))
  | VList _ => inl (TypeError "list indices must be integers or slices, not str")
  | _ => inl (TypeError ("'" ++ type_name v ++ "' object does not support item assignment"))
  end.

(** [k not in d] is [negb (dict_contains d k)]. *)
Definition dict_contains (d : gmap string value) (k : string) : bool :=
  match d !! k with
  | Some _ => true
  | None => false
  end.

(** ** The options and the merge *)

(** The six values [handle] reads from the [osconfig] section (lines
    84-93); the fields carry the names of its local variables.  The
    specification calls them [localManagement], [gitManagement],
    [gitRepositoryUrl], [gitBranch], [debugCommandLogging] and
    [debugFullLogging]; an absent key is [VNone]. *)
Record options : Type := Options {
  osconfig_localManagement_cfg : value;
  osconfig_gitManagement_cfg : value;
  osconfig_gitRepositoryUrl_cfg : value;
  osconfig_gitBranch_cfg : value;
  osconfig_debugCommandLogging_cfg : value;
  osconfig_debugFullLogging_cfg : value
}.

(** Lines 84-93 of [handle]: six [get] calls on the section. *)
Definition read_options (osconfig_cfg : value) : result options :=
  let? lm := dict_get osconfig_cfg "local_management" in
  let? gm := dict_get osconfig_cfg "git_management" in
  let? url := dict_get osconfig_cfg "git_repository_url" in
  let? br := dict_get osconfig_cfg "git_branch" in
  let? dcl := dict_get osconfig_cfg "debug_command_logging" in
  let? dfl := dict_get osconfig_cfg "debug_full_logging" in
  inr (Options lm gm url br dcl dfl).

(** Lines 103-115 of [handle]: the overlay of the options on the loaded
    configuration [mycfg].  The key written at line 107 is spelled
    ['GitMananagement'] in the source, and so it is here. *)
Definition reconcile (mycfg : value) (o : options) : result value :=
  let? mycfg :=
    if truthy (osconfig_localManagement_cfg o) then
      dict_setitem mycfg "LocalManagement" (osconfig_localManagement_cfg o)
    else if truthy (osconfig_gitManagement_cfg o) then
      let? mycfg := dict_setitem mycfg "GitMananagement" (osconfig_gitManagement_cfg o) in
      let? mycfg := dict_setitem mycfg "GitRepositoryUrl" (osconfig_gitRepositoryUrl_cfg o) in
      dict_setitem mycfg "GitBranch" (osconfig_gitBranch_cfg o)
    else inr mycfg in
  let? mycfg :=
    if truthy (osconfig_debugCommandLogging_cfg o) then
      dict_setitem mycfg "CommandLogging" (osconfig_debugCommandLogging_cfg o)
    else inr mycfg in
  if truthy (osconfig_debugFullLogging_cfg o) then
    dict_setitem mycfg "FullLogging" (osconfig_debugFullLogging_cfg o)
  else inr mycfg.

(** ** Effects *)

(** What the module does to the outside world, in the order it does it. *)
Inductive event : Type :=
| LogInfo (fmt : string) (args : list string)
| SubpWhich (program : string)
| InstallPackages (pkgs : list string)
| LoadTextFile (path : string)
| ManageService (action service : string)
| WriteJson (path : string) (data : value).

(** The distribution object [cloud.distro] as one run sees it: each method
    either returns ([None]) or raises.  Statements about two runs take one
    such object per run. *)
Record Distro : Type := {
  distro_install_packages : list string -> option exn;
  distro_manage_service : string -> string -> option exn
}.

Record Cloud : Type := { distro : Distro }.

(** The rest of the machine: the program search path, the file system as
    seen by [util.load_text_file], the JSON decoder [util.load_json] and
    [atomic_helper.write_json].  None of the four is defined in this
    repository's sources, so the development is parametric in them. *)
Record Host : Type := {
  host_which : string -> option string;
  host_load_text_file : string -> result string;
  host_load_json : string -> result value;
  host_write_json : string -> value -> option exn
}.

Record outcome (A : Type) : Type := Outcome {
  trace : list event;
  returned : result A
}.
Arguments Outcome {A} _ _.
Arguments trace {A} _.
Arguments returned {A} _.

(** A computation reads the host, emits events and returns or raises. *)
Definition M (A : Type) : Type := Host -> outcome A.

Definition ret {A : Type} (a : A) : M A := fun _ => Outcome [] (inr a).

Definition lift {A : Type} (r : result A) : M A := fun _ => Outcome [] r.

Definition bind {A B : Type} (m : M A) (k : A -> M B) : M B :=
  fun h =>
    match m h with
    | Outcome t (inl e) => Outcome t (inl e)
    | Outcome t (inr a) =>
        match k a h with
        | Outcome t' r => Outcome (t ++ t') r
        end
    end.

Notation "'let*' x ':=' m 'in' k" := (bind m (fun x => k))
  (at level 10, x name, m at level 100, k at level 200).

(** What a method that returns [None] or raises gives back to its caller. *)
Definition answer (a : option exn) : result unit :=
  match a with
  | Some e => inl e
  | None => inr tt
  end.

(** A call to such a method: one event, then its answer. *)
Definition call (ev : event) (a : option exn) : outcome unit :=
  Outcome [ev] (answer a).

Definition log_info (fmt : string) (args : list string) : M unit :=
  fun _ => Outcome [LogInfo fmt args] (inr tt).

Definition subp_which (program : string) : M (option string) :=
  fun h => Outcome [SubpWhich program] (inr (host_which h program)).

Definition install_packages (d : Distro) (pkgs : list string) : M unit :=
  fun _ => call (InstallPackages pkgs) (distro_install_packages d pkgs).

Definition manage_service (d : Distro) (action service : string) : M unit :=
  fun _ => call (ManageService action service) (distro_manage_service d action service).

Definition load_text_file (path : string) : M string :=
  fun h => Outcome [LoadTextFile path] (host_load_text_file h path).

Definition load_json (text : string) : M value :=
  fun h => Outcome [] (host_load_json h text).

Definition write_json (path : string) (data : value) : M unit :=
  fun h => call (WriteJson path data) (host_write_json h path data).

(** Truth of what [subp.which] returns: a path, or [None]. *)
Definition found (p : option string) : bool :=
  match p with
  | Some path => negb (String.eqb path "")
  | None => false
  end.

(** ** The module *)

Definition OSCONFIG_CONFIGURATION_FILEPATH : string := "/etc/osconfig/osconfig.json".

Definition update_config (d : Distro) (config : value) : M unit :=
  let* _ := manage_service d "stop" "osconfig" in
  let* _ := write_json OSCONFIG_CONFIGURATION_FILEPATH config in
  manage_service d "start" "osconfig".

Definition handle (name : string) (cfg : gmap string value) (cloud : Cloud)
    (args : list string) : M unit :=
  if negb (dict_contains cfg "osconfig") then
    log_info "Skipping module named %s, no 'osconfig' key in configuration" [name]
  else
    let osconfig_cfg := default (VDict ∅) (cfg !! "osconfig") in
    let* o := lift (read_options osconfig_cfg) in
    let* path := subp_which "osconfig" in
    let* _ := (if negb (found path)
               then install_packages (distro cloud) ["osconfig"]
               else ret tt) in
    let* text := load_text_file OSCONFIG_CONFIGURATION_FILEPATH in
    let* mycfg := load_json text in
    let* mycfg := lift (reconcile mycfg o) in
    update_config (distro cloud) mycfg.

(** ** Notions used by the statements *)

(** Everything [handle] does after the section test and before it calls
    [update_config] (lines 81-115), as one computation that returns the
    merged configuration.  [handle_prepare] shows that [handle] is this
    computation followed by [update_config]. *)
Definition prepare (osconfig_cfg : value) (cloud : Cloud) : M value :=
  let* o := lift (read_options osconfig_cfg) in
  let* path := subp_which "osconfig" in
  let* _ := (if negb (found path)
             then install_packages (distro cloud) ["osconfig"]
             else ret tt) in
  let* text := load_text_file OSCONFIG_CONFIGURATION_FILEPATH in
  let* mycfg := load_json text in
  lift (reconcile mycfg o).

(** Lines 96-101 on their own: make sure the agent is installed, then load
    the configuration file. *)
Definition install_and_load (cloud : Cloud) : M value :=
  let* path := subp_which "osconfig" in
  let* _ := (if negb (found path)
             then install_packages (distro cloud) ["osconfig"]
             else ret tt) in
  let* text := load_text_file OSCONFIG_CONFIGURATION_FILEPATH in
  load_json text.

(** The keys [handle] reads from the section (lines 84-93). *)
Definition recognized_keys : list string :=
  ["local_management"; "git_management"; "git_repository_url"; "git_branch";
   "debug_command_logging"; "debug_full_logging"].

(** The keys the specification lists as managed. *)
Definition managed_keys : list string :=
  ["LocalManagement"; "GitManagement"; "GitRepositoryUrl"; "GitBranch";
   "CommandLogging"; "FullLogging"].

(** An options record in which every field is absent or falsy. *)
Definition no_truthy_option (o : options) : Prop :=
  truthy (osconfig_localManagement_cfg o) = false /\
  truthy (osconfig_gitManagement_cfg o) = false /\
  truthy (osconfig_gitRepositoryUrl_cfg o) = false /\
  truthy (osconfig_gitBranch_cfg o) = false /\
  truthy (osconfig_debugCommandLogging_cfg o) = false /\
  truthy (osconfig_debugFullLogging_cfg o) = false.

(** What [reconcile] leaves in a dictionary, one assignment of the source
    per [insert]; [reconcile_dict] proves that this is its result. *)
Definition overlay (S : gmap string value) (o : options) : gmap string value :=
  let S1 :=
    if truthy (osconfig_localManagement_cfg o) then
      <["LocalManagement" := osconfig_localManagement_cfg o]> S
    else if truthy (osconfig_gitManagement_cfg o) then
      <["GitBranch" := osconfig_gitBranch_cfg o]>
        (<["GitRepositoryUrl" := osconfig_gitRepositoryUrl_cfg o]>
           (<["GitMananagement" := osconfig_gitManagement_cfg o]> S))
    else S in
  let S2 :=
    if truthy (osconfig_debugCommandLogging_cfg o) then
      <["CommandLogging" := osconfig_debugCommandLogging_cfg o]> S1
    else S1 in
  if truthy (osconfig_debugFullLogging_cfg o) then
    <["FullLogging" := osconfig_debugFullLogging_cfg o]> S2
  else S2.

Definition stop_event : event := ManageService "stop" "osconfig".
Definition start_event : event := ManageService "start" "osconfig".
Definition write_event (config : value) : event :=
  WriteJson OSCONFIG_CONFIGURATION_FILEPATH config.

(** The events that touch the service or write the file. *)
Definition is_persist_effect (ev : event) : bool :=
  match ev with
  | ManageService _ _ | WriteJson _ _ => true
  | _ => false
  end.

Definition persist_effects (t : list event) : list event :=
  List.filter is_persist_effect t.

(** A trace without any service or file-write event. *)
Definition quiet_trace (t : list event) : Prop :=
  Forall (fun ev => is_persist_effect ev = false) t.

Definition quiet {A : Type} (m : M A) : Prop :=
  forall h, quiet_trace (trace (m h)).

(** The agent is there once line 98 is passed: either it was found, or the
    installation returned. *)
Definition install_ok (cloud : Cloud) (h : Host) : Prop :=
  found (host_which h "osconfig") = true \/
  distro_install_packages (distro cloud) ["osconfig"] = None.

(** The installation is attempted and raises [e]. *)
Definition install_fails (cloud : Cloud) (h : Host) (e : exn) : Prop :=
  found (host_which h "osconfig") = false /\
  distro_install_packages (distro cloud) ["osconfig"] = Some e.

(** Line 101 raises [e]: the file cannot be read, or its text is not JSON. *)
Definition load_fails (h : Host) (e : exn) : Prop :=
  host_load_text_file h OSCONFIG_CONFIGURATION_FILEPATH = inl e \/
  exists text,
    host_load_text_file h OSCONFIG_CONFIGURATION_FILEPATH = inr text /\
    host_load_json h text = inl e.

(** Line 101 returns [mycfg]. *)
Definition load_ok (h : Host) (mycfg : value) : Prop :=
  exists text,
    host_load_text_file h OSCONFIG_CONFIGURATION_FILEPATH = inr text /\
    host_load_json h text = inr mycfg.

(** The events of lines 97-98: the search, and the installation when the
    search finds nothing. *)
Definition install_trace (h : Host) : list event :=
  SubpWhich "osconfig" ::
  (if found (host_which h "osconfig") then [] else [InstallPackages ["osconfig"]]).

(** ** Sample machines and documents *)

(** A distribution whose package manager and service manager both work. *)
Definition distro_ok : Distro :=
  {| distro_install_packages := fun _ => None;
     distro_manage_service := fun _ _ => None |}.

(** A distribution whose package manager fails. *)
Definition distro_no_repo : Distro :=
  {| distro_install_packages := fun _ => Some (ProcessExecutionError "install failed");
     distro_manage_service := fun _ _ => None |}.

(** A machine with the agent installed and [state] in its configuration
    file. *)
Definition host_with (state : value) : Host :=
  {| host_which := fun _ => Some "/usr/bin/osconfig";
     host_load_text_file := fun _ => inr "<file text>";
     host_load_json := fun _ => inr state;
     host_write_json := fun _ _ => None |}.

(** A machine without the agent. *)
Definition host_bare (state : value) : Host :=
  {| host_which := fun _ => None;
     host_load_text_file := fun _ => inr "<file text>";
     host_load_json := fun _ => inr state;
     host_write_json := fun _ _ => None |}.

(** A machine whose configuration file does not hold JSON. *)
Definition host_bad_json : Host :=
  {| host_which := fun _ => Some "/usr/bin/osconfig";
     host_load_text_file := fun _ => inr "not json";
     host_load_json := fun _ => inl (ValueError "invalid JSON");
     host_write_json := fun _ _ => None |}.

(** A machine on which the configuration file cannot be written. *)
Definition host_read_only (state : value) : Host :=
  {| host_which := fun _ => Some "/usr/bin/osconfig";
     host_load_text_file := fun _ => inr "<file text>";
     host_load_json := fun _ => inr state;
     host_write_json := fun _ _ => Some (OSError "read-only file system") |}.

(** The second documented example of the module, with the URL and branch of
    the specification's scenario B. *)
Definition git_options : options :=
  Options VNone (VInt 1) (VStr "https://example.com/r") (VStr "main") VNone VNone.

(** The same as a document:
    [osconfig: {git_management: 1, git_repository_url: ..., git_branch: main}]. *)
Definition git_example : gmap string value :=
  {[ "osconfig" := VDict {[ "git_management" := VInt 1;
                            "git_repository_url" := VStr "https://example.com/r";
                            "git_branch" := VStr "main" ]} ]}.

(** The third documented example of the module:
    [osconfig: {command_logging: 1, full_logging: 1}]. *)
Definition logging_example : gmap string value :=
  {[ "osconfig" := VDict {[ "command_logging" := VInt 1; "full_logging" := VInt 1 ]} ]}.

(** [osconfig: {}]. *)
Definition empty_section : gmap string value :=
  {[ "osconfig" := VDict ∅ ]}.

(** The first documented example: [osconfig: {local_management: 1}]. *)
Definition local_example : gmap string value :=
  {[ "osconfig" := VDict {[ "local_management" := VInt 1 ]} ]}.

(** ** Notions for whole runs *)

(** The trace of a run in which every call is made. *)
Definition pipeline (h : Host) (config : value) : list event :=
  install_trace h ++
  [LoadTextFile OSCONFIG_CONFIGURATION_FILEPATH;
   stop_event; write_event config; start_event].

(** The keys lines 105-115 assign, spelled as in the source. *)
Definition assigned_keys : list string :=
  ["LocalManagement"; "GitMananagement"; "GitRepositoryUrl"; "GitBranch";
   "CommandLogging"; "FullLogging"].

(** The management part of an options record, and its logging part. *)
Definition management_only (o : options) : options :=
  Options (osconfig_localManagement_cfg o) (osconfig_gitManagement_cfg o)
          (osconfig_gitRepositoryUrl_cfg o) (osconfig_gitBranch_cfg o)
          VNone VNone.

Definition logging_only (o : options) : options :=
  Options VNone VNone VNone VNone
          (osconfig_debugCommandLogging_cfg o) (osconfig_debugFullLogging_cfg o).

(** The seven ways a run of [handle] on a document with an [osconfig]
    section [osconfig_cfg] can end, in the order of the source: the section
    has no [get] (line 84), the installation raises (line 98), the load
    raises (line 101), an assignment raises (lines 105-115), the stop
    raises (line 70), the write raises (line 72), or the start is reached
    (line 73). *)
Inductive run_shape (osconfig_cfg : value) (cloud : Cloud) (h : Host) :
    outcome unit -> Prop :=
| run_bad_section (e : exn) :
    read_options osconfig_cfg = inl e ->
    run_shape osconfig_cfg cloud h (Outcome [] (inl e))
| run_install_fails (o : options) (e : exn) :
    read_options osconfig_cfg = inr o ->
    install_fails cloud h e ->
    run_shape osconfig_cfg cloud h
      (Outcome [SubpWhich "osconfig"; InstallPackages ["osconfig"]] (inl e))
| run_load_fails (o : options) (e : exn) :
    read_options osconfig_cfg = inr o ->
    install_ok cloud h ->
    load_fails h e ->
    run_shape osconfig_cfg cloud h
      (Outcome (install_trace h ++ [LoadTextFile OSCONFIG_CONFIGURATION_FILEPATH])
               (inl e))
| run_merge_fails (o : options) (mycfg : value) (e : exn) :
    read_options osconfig_cfg = inr o ->
    install_ok cloud h ->
    load_ok h mycfg ->
    reconcile mycfg o = inl e ->
    run_shape osconfig_cfg cloud h
      (Outcome (install_trace h ++ [LoadTextFile OSCONFIG_CONFIGURATION_FILEPATH])
               (inl e))
| run_stop_fails (o : options) (mycfg config : value) (e : exn) :
    read_options osconfig_cfg = inr o ->
    install_ok cloud h ->
    load_ok h mycfg ->
    reconcile mycfg o = inr config ->
    distro_manage_service (distro cloud) "stop" "osconfig" = Some e ->
    run_shape osconfig_cfg cloud h
      (Outcome (install_trace h ++
                [LoadTextFile OSCONFIG_CONFIGURATION_FILEPATH; stop_event])
               (inl e))
| run_write_fails (o : options) (mycfg config : value) (e : exn) :
    read_options osconfig_cfg = inr o ->
    install_ok cloud h ->
    load_ok h mycfg ->
    reconcile mycfg o = inr config ->
    distro_manage_service (distro cloud) "stop" "osconfig" = None ->
    host_write_json h OSCONFIG_CONFIGURATION_FILEPATH config = Some e ->
    run_shape osconfig_cfg cloud h
      (Outcome (install_trace h ++
                [LoadTextFile OSCONFIG_CONFIGURATION_FILEPATH; stop_event;
                 write_event config])
               (inl e))
| run_start_reached (o : options) (mycfg config : value) :
    read_options osconfig_cfg = inr o ->
    install_ok cloud h ->
    load_ok h mycfg ->
    reconcile mycfg o = inr config ->
    distro_manage_service (distro cloud) "stop" "osconfig" = None ->
    host_write_json h OSCONFIG_CONFIGURATION_FILEPATH config = None ->
    run_shape osconfig_cfg cloud h
      (Outcome (pipeline h config)
               (answer (distro_manage_service (distro cloud) "start" "osconfig"))).

(** A machine on which the service manager cannot start the agent. *)
Definition distro_no_start : Distro :=
  {| distro_install_packages := fun _ => None;
     distro_manage_service := fun action _ =>
       if String.eqb action "start"
       then Some (ProcessExecutionError "start failed")
       else None |}.

(** A machine on which the service manager cannot stop the agent. *)
Definition distro_no_stop : Distro :=
  {| distro_install_packages := fun _ => None;
     distro_manage_service := fun action _ =>
       if String.eqb action "stop"
       then Some (ProcessExecutionError "stop failed")
       else None |}.

(** ** Proof automation *)

(** Lemmas on computations that leave the service and the file alone. *)
Create HintDb quiet.

(** Case analysis on every test of the merge, then lookups through the
    inserts. *)
Ltac by_cases :=
  repeat match goal with
         | |- context [if ?b then _ else _] => destruct b
         end;
  repeat first [ rewrite lookup_insert_eq
               | rewrite lookup_insert_ne by congruence ];
  try reflexivity.

(** Lookups through any stack of inserts with literal keys. *)
Ltac by_lookup :=
  apply map_eq; intros ?; unfold overlay; simpl;
  repeat match goal with
         | |- context [if ?b then _ else _] => destruct b
         end;
  rewrite ?lookup_insert;
  repeat case_decide; subst; try discriminate; try reflexivity; congruence.

(** Membership in the traces of [run_shape]. *)
Ltac in_trace h :=
  unfold pipeline, install_trace, stop_event, start_event, write_event in *;
  destruct (found (host_which h "osconfig")) eqn:?; simpl in *;
  intuition (try discriminate; try congruence).

(** * Laws of the monad *)

Section Laws.
Context {A B C : Type}.

Lemma bind_ok (m : M A) (k : A -> M B) (h : Host) (t : list event) (a : A) :
  m h = Outcome t (inr a) ->
  bind m k h = Outcome (t ++ trace (k a h)) (returned (k a h)).
Proof. intros Hm. unfold bind. rewrite Hm. destruct (k a h); reflexivity. Qed.

Lemma bind_err (m : M A) (k : A -> M B) (h : Host) (t : list event) (e : exn) :
  m h = Outcome t (inl e) -> bind m k h = Outcome t (inl e).
Proof. intros Hm. unfold bind. rewrite Hm. reflexivity. Qed.

Lemma bind_lift_ok (a : A) (k : A -> M B) (h : Host) :
  bind (lift (inr a)) k h = k a h.
Proof. unfold bind, lift. destruct (k a h); reflexivity. Qed.

Lemma bind_lift_err (e : exn) (k : A -> M B) (h : Host) :
  bind (lift (inl e)) k h = Outcome [] (inl e).
Proof. reflexivity. Qed.

Lemma bind_ret (a : A) (k : A -> M B) (h : Host) : bind (ret a) k h = k a h.
Proof. apply bind_lift_ok. Qed.

Lemma bind_ext (m : M A) (k k' : A -> M B) (h : Host) :
  (forall a, k a h = k' a h) -> bind m k h = bind m k' h.
Proof.
  intros Hk. unfold bind. destruct (m h) as [t [e | a]]; [reflexivity |].
  rewrite Hk. reflexivity.
Qed.

Lemma bind_assoc (m : M A) (f : A -> M B) (g : B -> M C) (h : Host) :
  bind (bind m f) g h = bind m (fun a => bind (f a) g) h.
Proof.
  unfold bind. destruct (m h) as [t [e | a]]; [reflexivity |].
  destruct (f a h) as [t1 [e | b]]; [reflexivity |].
  destruct (g b h) as [t2 r]. rewrite app_assoc. reflexivity.
Qed.
End Laws.

(** * Quiet computations *)

Lemma quiet_lift {A : Type} (r : result A) : quiet (lift r).
Proof. intros h. constructor. Qed.

Lemma quiet_ret {A : Type} (a : A) : quiet (ret a).
Proof. intros h. constructor. Qed.

Lemma quiet_subp_which (program : string) : quiet (subp_which program).
Proof. intros h. repeat constructor. Qed.

Lemma quiet_install_packages (d : Distro) (pkgs : list string) :
  quiet (install_packages d pkgs).
Proof. intros h. repeat constructor. Qed.

Lemma quiet_load_text_file (path : string) : quiet (load_text_file path).
Proof. intros h. repeat constructor. Qed.

Lemma quiet_load_json (text : string) : quiet (load_json text).
Proof. intros h. constructor. Qed.

Lemma quiet_bind {A B : Type} (m : M A) (k : A -> M B) :
  quiet m -> (forall a, quiet (k a)) -> quiet (bind m k).
Proof.
  intros Hm Hk h. specialize (Hm h). unfold bind.
  destruct (m h) as [t [e | a]]; [exact Hm |].
  specialize (Hk a h). destruct (k a h) as [t' r].
  apply Forall_app. split; assumption.
Qed.

Lemma quiet_if {A : Type} (b : bool) (m m' : M A) :
  quiet m -> quiet m' -> quiet (if b then m else m').
Proof. destruct b; auto. Qed.

#[local] Hint Resolve quiet_lift quiet_ret quiet_subp_which quiet_install_packages
  quiet_load_text_file quiet_load_json quiet_bind quiet_if : quiet.

(** Nothing before [update_config] touches the service or writes the file. *)
Lemma quiet_prepare (osconfig_cfg : value) (cloud : Cloud) :
  quiet (prepare osconfig_cfg cloud).
Proof. unfold prepare. auto 20 with quiet. Qed.

Lemma quiet_trace_no_stop (t : list event) : quiet_trace t -> ~ In stop_event t.
Proof.
  intros Hq Hin. unfold quiet_trace in Hq. rewrite List.Forall_forall in Hq.
  apply Hq in Hin. discriminate Hin.
Qed.

Lemma quiet_trace_persist_effects (t : list event) :
  quiet_trace t -> persist_effects t = [].
Proof.
  induction 1 as [| ev t Hev _ IH]; [reflexivity |].
  unfold persist_effects in *. simpl. rewrite Hev. exact IH.
Qed.

(** * The shape of a run of [handle] *)

Section Runs.
Variables (name : string) (cfg : gmap string value) (cloud : Cloud)
          (args : list string) (h : Host).

Lemma handle_no_section :
  cfg !! "osconfig" = None ->
  handle name cfg cloud args h =
    Outcome [LogInfo "Skipping module named %s, no 'osconfig' key in configuration" [name]]
            (inr tt).
Proof. intros Hc. unfold handle, dict_contains. rewrite Hc. reflexivity. Qed.

Lemma handle_prepare (osconfig_cfg : value) :
  cfg !! "osconfig" = Some osconfig_cfg ->
  handle name cfg cloud args h =
    bind (prepare osconfig_cfg cloud) (update_config (distro cloud)) h.
Proof.
  intros Hc. unfold handle, dict_contains, prepare. rewrite Hc. simpl.
  symmetry.
  repeat (rewrite bind_assoc; apply bind_ext; intros ?).
  reflexivity.
Qed.

(** The three ways [update_config] can end. *)
Lemma update_config_run (config : value) :
  update_config (distro cloud) config h =
    match distro_manage_service (distro cloud) "stop" "osconfig",
          host_write_json h OSCONFIG_CONFIGURATION_FILEPATH config with
    | Some e, _ => Outcome [stop_event] (inl e)
    | None, Some e => Outcome [stop_event; write_event config] (inl e)
    | None, None =>
        Outcome [stop_event; write_event config; start_event]
                (answer (distro_manage_service (distro cloud) "start" "osconfig"))
    end.
Proof.
  unfold update_config, bind, manage_service, write_json, call, answer.
  destruct (distro_manage_service (distro cloud) "stop" "osconfig"); [reflexivity |].
  destruct (host_write_json h OSCONFIG_CONFIGURATION_FILEPATH config); reflexivity.
Qed.
End Runs.

(** * Runs of the part before [update_config] *)

Section Prepare.
Variables (osconfig_cfg : value) (cloud : Cloud) (h : Host) (o : options).
Hypothesis Hread : read_options osconfig_cfg = inr o.

Lemma prepare_install_fails (e : exn) :
  install_fails cloud h e ->
  prepare osconfig_cfg cloud h =
    Outcome [SubpWhich "osconfig"; InstallPackages ["osconfig"]] (inl e).
Proof.
  intros [Hw Hi]. unfold prepare. rewrite Hread, bind_lift_ok.
  unfold bind, subp_which, install_packages, call. rewrite Hw. simpl.
  rewrite Hi. reflexivity.
Qed.

(** Lines 97-98 when they do not raise. *)
Lemma install_step (k : unit -> M value) :
  install_ok cloud h ->
  bind (subp_which "osconfig")
       (fun path =>
          bind (if negb (found path)
                then install_packages (distro cloud) ["osconfig"]
                else ret tt) k) h =
    Outcome (install_trace h ++ trace (k tt h)) (returned (k tt h)).
Proof.
  intros Hok. unfold install_trace.
  rewrite (bind_ok _ _ h [SubpWhich "osconfig"] (host_which h "osconfig"))
    by reflexivity.
  destruct (found (host_which h "osconfig")) eqn:Hw; simpl.
  - rewrite bind_ret. reflexivity.
  - destruct Hok as [Hf | Hi]; [congruence |].
    unfold bind, install_packages, call. rewrite Hi. simpl.
    destruct (k tt h); reflexivity.
Qed.

Lemma prepare_load_fails (e : exn) :
  install_ok cloud h -> load_fails h e ->
  prepare osconfig_cfg cloud h =
    Outcome (install_trace h ++ [LoadTextFile OSCONFIG_CONFIGURATION_FILEPATH]) (inl e).
Proof.
  intros Hok Hl. unfold prepare. rewrite Hread, bind_lift_ok, install_step by exact Hok.
  unfold bind, load_text_file, load_json, lift.
  destruct Hl as [Ht | (text & Ht & Hj)]; rewrite Ht; [reflexivity |].
  rewrite Hj. reflexivity.
Qed.

Lemma prepare_loaded (mycfg : value) :
  install_ok cloud h -> load_ok h mycfg ->
  prepare osconfig_cfg cloud h =
    Outcome (install_trace h ++ [LoadTextFile OSCONFIG_CONFIGURATION_FILEPATH])
            (reconcile mycfg o).
Proof.
  intros Hok (text & Ht & Hj). unfold prepare.
  rewrite Hread, bind_lift_ok, install_step by exact Hok.
  unfold bind, load_text_file, load_json, lift. rewrite Ht, Hj.
  destruct (reconcile mycfg o); reflexivity.
Qed.
End Prepare.

(** A section that is not a dictionary stops [handle] before any effect. *)
Lemma prepare_not_dict (osconfig_cfg : value) (cloud : Cloud) (h : Host) (e : exn) :
  read_options osconfig_cfg = inl e ->
  prepare osconfig_cfg cloud h = Outcome [] (inl e).
Proof. intros Hr. unfold prepare. rewrite Hr. reflexivity. Qed.

Lemma install_trace_quiet (h : Host) : quiet_trace (install_trace h).
Proof.
  unfold install_trace. destruct (found (host_which h "osconfig")); repeat constructor.
Qed.

(** The options read from a dictionary. *)
Lemma read_options_dict (sec : gmap string value) :
  read_options (VDict sec) =
    inr (Options (default VNone (sec !! "local_management"))
                 (default VNone (sec !! "git_management"))
                 (default VNone (sec !! "git_repository_url"))
                 (default VNone (sec !! "git_branch"))
                 (default VNone (sec !! "debug_command_logging"))
                 (default VNone (sec !! "debug_full_logging"))).
Proof. reflexivity. Qed.

(** A run in which nothing raises before the write: the file receives the
    merged configuration between the stop and the start of the service. *)
Lemma handle_success (name : string) (cfg : gmap string value) (cloud : Cloud)
    (args : list string) (h : Host) (osconfig_cfg : value) (o : options)
    (mycfg config : value) :
  cfg !! "osconfig" = Some osconfig_cfg ->
  read_options osconfig_cfg = inr o ->
  install_ok cloud h ->
  load_ok h mycfg ->
  reconcile mycfg o = inr config ->
  distro_manage_service (distro cloud) "stop" "osconfig" = None ->
  host_write_json h OSCONFIG_CONFIGURATION_FILEPATH config = None ->
  handle name cfg cloud args h =
    Outcome (install_trace h ++
             [LoadTextFile OSCONFIG_CONFIGURATION_FILEPATH;
              stop_event; write_event config; start_event])
            (answer (distro_manage_service (distro cloud) "start" "osconfig")).
Proof.
  intros Hc Hr Hi Hl Hm Hs Hw.
  rewrite (handle_prepare _ _ _ _ _ _ Hc).
  rewrite (bind_ok _ _ _ _ config
             (eq_trans (prepare_loaded _ _ _ _ Hr _ Hi Hl) (f_equal _ Hm))).
  rewrite update_config_run, Hs, Hw. simpl. rewrite <- app_assoc. reflexivity.
Qed.

(** * The section is read through six keys only *)

Lemma read_options_agree (sec sec' : gmap string value) :
  (forall k, k ∈ recognized_keys -> sec !! k = sec' !! k) ->
  read_options (VDict sec) = read_options (VDict sec').
Proof.
  intros H. rewrite !read_options_dict.
  rewrite !H by (unfold recognized_keys; set_solver). reflexivity.
Qed.

Lemma handle_section_agree (name : string) (cfg cfg' : gmap string value)
    (cloud : Cloud) (args : list string) (h : Host) (s s' : value) :
  cfg !! "osconfig" = Some s -> cfg' !! "osconfig" = Some s' ->
  read_options s = read_options s' ->
  handle name cfg cloud args h = handle name cfg' cloud args h.
Proof.
  intros Hc Hc' Hr.
  rewrite (handle_prepare _ _ _ _ _ _ Hc), (handle_prepare _ _ _ _ _ _ Hc').
  unfold prepare. rewrite Hr. reflexivity.
Qed.

(** Whatever the section binds to [command_logging] and [full_logging], the
    run is the one of the section without these two keys: same events (so
    nothing is logged about them), same file content, same return. *)
Lemma logging_aliases_ignored (name : string) (cfg : gmap string value)
    (cloud : Cloud) (args : list string) (h : Host)
    (sec : gmap string value) (a b : value) :
  handle name
    (<["osconfig" := VDict (<["command_logging" := a]> (<["full_logging" := b]> sec))]> cfg)
    cloud args h =
  handle name
    (<["osconfig" := VDict (delete "command_logging" (delete "full_logging" sec))]> cfg)
    cloud args h.
Proof.
  eapply handle_section_agree; try apply lookup_insert_eq.
  apply read_options_agree. intros k Hk.
  assert (k ≠ "command_logging" /\ k ≠ "full_logging") as [H1 H2].
  { unfold recognized_keys in Hk. rewrite !elem_of_cons, elem_of_nil in Hk.
    destruct Hk as [-> | [-> | [-> | [-> | [-> | [-> | []]]]]]]; split; discriminate. }
  rewrite !lookup_insert_ne, !lookup_delete_ne by congruence. reflexivity.
Qed.

(** * The merge on a dictionary *)

Section Overlay.
Variables (S : gmap string value) (o : options).

(** On a dictionary no item assignment can raise. *)
Lemma reconcile_dict : reconcile (VDict S) o = inr (VDict (overlay S o)).
Proof.
  unfold reconcile, overlay.
  destruct (truthy (osconfig_localManagement_cfg o));
    destruct (truthy (osconfig_gitManagement_cfg o));
    destruct (truthy (osconfig_debugCommandLogging_cfg o));
    destruct (truthy (osconfig_debugFullLogging_cfg o)); reflexivity.
Qed.

(** A key that no assignment of the source names keeps its binding. *)
Lemma overlay_other_key (k : string) :
  k ≠ "LocalManagement" -> k ≠ "GitMananagement" -> k ≠ "GitRepositoryUrl" ->
  k ≠ "GitBranch" -> k ≠ "CommandLogging" -> k ≠ "FullLogging" ->
  overlay S o !! k = S !! k.
Proof. intros H1 H2 H3 H4 H5 H6. unfold overlay. by_cases. Qed.

(** In the local-management branch the only keys assigned are
    ["LocalManagement"], ["CommandLogging"] and ["FullLogging"]. *)
Lemma overlay_local_other_key (k : string) :
  truthy (osconfig_localManagement_cfg o) = true ->
  k ≠ "LocalManagement" -> k ≠ "CommandLogging" -> k ≠ "FullLogging" ->
  overlay S o !! k = S !! k.
Proof. intros Hl H1 H2 H3. unfold overlay. rewrite Hl. by_cases. Qed.

Lemma overlay_local :
  truthy (osconfig_localManagement_cfg o) = true ->
  overlay S o !! "LocalManagement" = Some (osconfig_localManagement_cfg o).
Proof. intros Hl. unfold overlay. rewrite Hl. by_cases. Qed.

Lemma overlay_command_logging :
  truthy (osconfig_debugCommandLogging_cfg o) = true ->
  overlay S o !! "CommandLogging" = Some (osconfig_debugCommandLogging_cfg o).
Proof. intros Hc. unfold overlay. rewrite Hc. by_cases. Qed.

Lemma overlay_full_logging :
  truthy (osconfig_debugFullLogging_cfg o) = true ->
  overlay S o !! "FullLogging" = Some (osconfig_debugFullLogging_cfg o).
Proof. intros Hf. unfold overlay. rewrite Hf. by_cases. Qed.

(** The git branch of the merge: what it assigns, and that the key
    ["GitManagement"] is not among it. *)
Lemma overlay_git :
  truthy (osconfig_localManagement_cfg o) = false ->
  truthy (osconfig_gitManagement_cfg o) = true ->
  overlay S o !! "GitMananagement" = Some (osconfig_gitManagement_cfg o) /\
  overlay S o !! "GitRepositoryUrl" = Some (osconfig_gitRepositoryUrl_cfg o) /\
  overlay S o !! "GitBranch" = Some (osconfig_gitBranch_cfg o) /\
  overlay S o !! "GitManagement" = S !! "GitManagement".
Proof. intros Hl Hg. unfold overlay. rewrite Hl, Hg. repeat split; by_cases. Qed.
End Overlay.

(** When the four switches are falsy nothing is assigned, whatever was
    loaded (a dictionary or not) and whatever URL and branch are given. *)
Lemma reconcile_switches_off (mycfg : value) (o : options) :
  truthy (osconfig_localManagement_cfg o) = false ->
  truthy (osconfig_gitManagement_cfg o) = false ->
  truthy (osconfig_debugCommandLogging_cfg o) = false ->
  truthy (osconfig_debugFullLogging_cfg o) = false ->
  reconcile mycfg o = inr mycfg.
Proof.
  intros Hl Hg Hc Hf. unfold reconcile. rewrite Hl, Hg, Hc, Hf. reflexivity.
Qed.

(** With the four switches off, the part before [update_config] only
    installs and loads. *)
Lemma prepare_switches_off (osconfig_cfg : value) (cloud : Cloud) (h : Host)
    (o : options) :
  read_options osconfig_cfg = inr o ->
  truthy (osconfig_localManagement_cfg o) = false ->
  truthy (osconfig_gitManagement_cfg o) = false ->
  truthy (osconfig_debugCommandLogging_cfg o) = false ->
  truthy (osconfig_debugFullLogging_cfg o) = false ->
  prepare osconfig_cfg cloud h = install_and_load cloud h.
Proof.
  intros Hr Hl Hg Hc Hf. unfold prepare, install_and_load.
  rewrite Hr, bind_lift_ok.
  apply bind_ext; intros path. apply bind_ext; intros _.
  apply bind_ext; intros text.
  unfold bind, load_json, lift.
  destruct (host_load_json h text) as [e | mycfg]; [reflexivity |].
  rewrite reconcile_switches_off by assumption. rewrite app_nil_r. reflexivity.
Qed.

(** Every key outside the specification's six, and other than the key of
    line 107, goes through the merge untouched. *)
Lemma unmanaged_keys_preserved (S : gmap string value) (o : options) (k : string) :
  k ∉ managed_keys -> k ≠ "GitMananagement" ->
  exists R, reconcile (VDict S) o = inr (VDict R) /\ R !! k = S !! k.
Proof.
  intros Hk Hn. exists (overlay S o). split; [apply reconcile_dict |].
  unfold managed_keys in Hk. rewrite !not_elem_of_cons in Hk.
  destruct Hk as (H1 & H2 & H3 & H4 & H5 & H6 & _).
  apply overlay_other_key; assumption.
Qed.

(** A loaded value that is not a dictionary makes the first assignment
    raise [TypeError]. *)
Lemma reconcile_not_dict_local (l : list value) (o : options) :
  truthy (osconfig_localManagement_cfg o) = true ->
  reconcile (VList l) o =
    inl (TypeError "list indices must be integers or slices, not str").
Proof. intros Hl. unfold reconcile. rewrite Hl. reflexivity. Qed.

(** * Two complete runs *)

(** The specification's scenario A, from the document to the file. *)
Example scenario_A_run :
  handle "cc_osconfig" local_example {| distro := distro_ok |} [] (host_with (VDict ∅)) =
    Outcome [SubpWhich "osconfig"; LoadTextFile OSCONFIG_CONFIGURATION_FILEPATH;
             stop_event; write_event (VDict {[ "LocalManagement" := VInt 1 ]});
             start_event]
            (inr tt).
Proof. reflexivity. Qed.

(** Scenario B on a machine without the agent: the package is installed
    first, and the file receives the key as line 107 spells it. *)
Example scenario_B_run :
  handle "cc_osconfig" git_example {| distro := distro_ok |} [] (host_bare (VDict ∅)) =
    Outcome [SubpWhich "osconfig"; InstallPackages ["osconfig"];
             LoadTextFile OSCONFIG_CONFIGURATION_FILEPATH;
             stop_event;
             write_event (VDict {[ "GitMananagement" := VInt 1;
                                   "GitRepositoryUrl" := VStr "https://example.com/r";
                                   "GitBranch" := VStr "main" ]});
             start_event]
            (inr tt).
Proof. reflexivity. Qed.

(** The options of scenario B are the ones read from its document. *)
Example git_example_options :
  read_options (VDict {[ "git_management" := VInt 1;
                         "git_repository_url" := VStr "https://example.com/r";
                         "git_branch" := VStr "main" ]}) = inr git_options.
Proof. reflexivity. Qed.

(** A section that is not a mapping ([osconfig:] with nothing under it)
    raises before any effect. *)
Example null_section_run :
  handle "cc_osconfig" {[ "osconfig" := VNone ]} {| distro := distro_ok |} []
         (host_with (VDict ∅)) =
    Outcome [] (inl (AttributeError "'NoneType' object has no attribute 'get'")).
Proof. reflexivity. Qed.

(** * The claims *)

(** ** Git management *)

(** C1.  The specification's scenario B: empty persisted state, git
    management requested with a URL and a branch.  The merge stores the URL
    and the branch under ["GitRepositoryUrl"] and ["GitBranch"], but stores
    the switch under ["GitMananagement"] (the spelling of line 107); the
    result has no ["GitManagement"] key at all. *)
Theorem git_management_key_misspelled :
  reconcile (VDict ∅) git_options =
    inr (VDict {[ "GitMananagement" := VInt 1;
                  "GitRepositoryUrl" := VStr "https://example.com/r";
                  "GitBranch" := VStr "main" ]}) /\
  ({[ "GitMananagement" := VInt 1;
      "GitRepositoryUrl" := VStr "https://example.com/r";
      "GitBranch" := VStr "main" ]} : gmap string value) !! "GitManagement" = None.
Proof. split; reflexivity. Qed.

(** The same for every state and every options record that selects git
    management: ["GitManagement"] keeps whatever binding it had, or none. *)
Lemma git_branch_never_writes_GitManagement (S : gmap string value) (o : options) :
  truthy (osconfig_localManagement_cfg o) = false ->
  truthy (osconfig_gitManagement_cfg o) = true ->
  exists R, reconcile (VDict S) o = inr (VDict R) /\
    R !! "GitManagement" = S !! "GitManagement" /\
    R !! "GitMananagement" = Some (osconfig_gitManagement_cfg o) /\
    R !! "GitRepositoryUrl" = Some (osconfig_gitRepositoryUrl_cfg o) /\
    R !! "GitBranch" = Some (osconfig_gitBranch_cfg o).
Proof.
  intros Hl Hg. exists (overlay S o). split; [apply reconcile_dict |].
  destruct (overlay_git S o Hl Hg) as (H1 & H2 & H3 & H4). auto.
Qed.

(** ** The documented logging keys *)

(** C2.  The module's third documented example,
    [osconfig: {command_logging: 1, full_logging: 1}], on a machine with an
    empty configuration: the run is, event for event, the run of
    [osconfig: {}].  The empty configuration is written back, no
    ["CommandLogging"] or ["FullLogging"] is stored and nothing is logged. *)
Theorem documented_logging_keys_ignored :
  handle "cc_osconfig" logging_example {| distro := distro_ok |} [] (host_with (VDict ∅)) =
    handle "cc_osconfig" empty_section {| distro := distro_ok |} [] (host_with (VDict ∅)) /\
  handle "cc_osconfig" logging_example {| distro := distro_ok |} [] (host_with (VDict ∅)) =
    Outcome [SubpWhich "osconfig"; LoadTextFile OSCONFIG_CONFIGURATION_FILEPATH;
             stop_event; write_event (VDict ∅); start_event]
            (inr tt).
Proof. split; reflexivity. Qed.

(** ** Local management *)

(** C3.  When [local_management] is truthy the result binds
    ["LocalManagement"] to it, and the git keys (in the specification's
    spelling and in the source's) are bound exactly as they were in the
    existing state: none is added, changed or removed, whether or not
    [git_management] is truthy as well. *)
Theorem local_management_wins (S : gmap string value) (o : options) :
  truthy (osconfig_localManagement_cfg o) = true ->
  exists R, reconcile (VDict S) o = inr (VDict R) /\
    R !! "LocalManagement" = Some (osconfig_localManagement_cfg o) /\
    R !! "GitManagement" = S !! "GitManagement" /\
    R !! "GitRepositoryUrl" = S !! "GitRepositoryUrl" /\
    R !! "GitBranch" = S !! "GitBranch" /\
    R !! "GitMananagement" = S !! "GitMananagement".
Proof.
  intros Hl. exists (overlay S o). split; [apply reconcile_dict |].
  split; [apply overlay_local; exact Hl |].
  repeat split; apply overlay_local_other_key; solve [exact Hl | discriminate].
Qed.

(** Both switches on, a git branch already stored: local management is
    applied and the stored branch stays. *)
Lemma local_management_wins_witness :
  exists R,
    reconcile (VDict {[ "GitBranch" := VStr "old" ]})
              (Options (VInt 1) (VInt 1) (VStr "https://example.com/r") (VStr "main")
                       VNone VNone) = inr (VDict R) /\
    R !! "LocalManagement" = Some (VInt 1) /\
    R !! "GitManagement" = None /\
    R !! "GitRepositoryUrl" = None /\
    R !! "GitBranch" = Some (VStr "old") /\
    R !! "GitMananagement" = None.
Proof.
  exact (local_management_wins {[ "GitBranch" := VStr "old" ]}
           (Options (VInt 1) (VInt 1) (VStr "https://example.com/r") (VStr "main")
                    VNone VNone) eq_refl).
Defined.

(** ** Unmanaged keys *)

(** C4.  A state written by an earlier git-management run holds the key
    ["GitMananagement"].  It is none of the six managed keys, yet the next
    git-management run replaces its value. *)
Theorem misspelled_key_overwritten :
  ("GitMananagement" ∉ managed_keys) /\
  (exists R,
     reconcile (VDict {[ "GitMananagement" := VStr "legacy" ]}) git_options = inr (VDict R) /\
     ({[ "GitMananagement" := VStr "legacy" ]} : gmap string value) !! "GitMananagement"
       = Some (VStr "legacy") /\
     R !! "GitMananagement" = Some (VInt 1)).
Proof.
  split.
  - unfold managed_keys. rewrite !not_elem_of_cons. repeat split; try discriminate.
    apply not_elem_of_nil.
  - eexists. split; [apply reconcile_dict |]. split; reflexivity.
Qed.

(** ** Identity *)

(** C5.  With every option absent or falsy the merge returns the existing
    state unchanged. *)
Theorem identity_merge (S : gmap string value) (o : options) :
  no_truthy_option o -> reconcile (VDict S) o = inr (VDict S).
Proof.
  intros (Hl & Hg & _ & _ & Hc & Hf). apply reconcile_switches_off; assumption.
Qed.

Lemma identity_merge_witness :
  reconcile (VDict {[ "Protocol" := VInt 2 ]}) (Options VNone VNone VNone VNone VNone VNone)
  = inr (VDict {[ "Protocol" := VInt 2 ]}).
Proof.
  apply (identity_merge {[ "Protocol" := VInt 2 ]}
           (Options VNone VNone VNone VNone VNone VNone)).
  repeat split.
Defined.

(** ** Debug logging *)

(** C6.  Whatever the management options are, a truthy
    [debug_command_logging] ends up under ["CommandLogging"] and a truthy
    [debug_full_logging] under ["FullLogging"]. *)
Theorem debug_logging_applied (S : gmap string value) (o : options) :
  exists R, reconcile (VDict S) o = inr (VDict R) /\
    (truthy (osconfig_debugCommandLogging_cfg o) = true ->
     R !! "CommandLogging" = Some (osconfig_debugCommandLogging_cfg o)) /\
    (truthy (osconfig_debugFullLogging_cfg o) = true ->
     R !! "FullLogging" = Some (osconfig_debugFullLogging_cfg o)).
Proof.
  exists (overlay S o). split; [apply reconcile_dict |].
  split; [apply overlay_command_logging | apply overlay_full_logging].
Qed.

Lemma debug_logging_applied_witness :
  exists R,
    reconcile (VDict ∅) (Options (VInt 1) VNone VNone VNone (VInt 1) (VStr "on"))
      = inr (VDict R) /\
    R !! "CommandLogging" = Some (VInt 1) /\
    R !! "FullLogging" = Some (VStr "on").
Proof.
  destruct (debug_logging_applied ∅
              (Options (VInt 1) VNone VNone VNone (VInt 1) (VStr "on")))
    as (R & HR & Hc & Hf).
  exists R. split; [exact HR |]. split; [apply Hc | apply Hf]; reflexivity.
Defined.

(** ** No section *)

(** C7.  Without an [osconfig] key the whole run is one log record: no
    program search, no installation, no read or write of the configuration
    file, no service call; [handle] returns normally. *)
Theorem no_section_is_skipped (name : string) (cfg : gmap string value)
    (cloud : Cloud) (args : list string) (h : Host) :
  cfg !! "osconfig" = None ->
  handle name cfg cloud args h =
    Outcome [LogInfo "Skipping module named %s, no 'osconfig' key in configuration" [name]]
            (inr tt).
Proof. apply handle_no_section. Qed.

Lemma no_section_is_skipped_witness :
  handle "cc_osconfig" {[ "hostname" := VStr "node1" ]} {| distro := distro_no_repo |} []
         host_bad_json =
    Outcome [LogInfo "Skipping module named %s, no 'osconfig' key in configuration"
                     ["cc_osconfig"]]
            (inr tt).
Proof.
  apply (no_section_is_skipped "cc_osconfig" {[ "hostname" := VStr "node1" ]}
           {| distro := distro_no_repo |} [] host_bad_json).
  reflexivity.
Defined.

(** ** Failures before the write *)

(** C8.  When the installation raises, or when the installation is passed
    and loading the configuration file raises (unreadable file or invalid
    JSON), [handle] raises that exception and its trace holds no write of
    the file and no service call. *)
Theorem failure_before_persist (name : string) (cfg : gmap string value)
    (cloud : Cloud) (args : list string) (h : Host)
    (osconfig_cfg : value) (o : options) (e : exn) :
  cfg !! "osconfig" = Some osconfig_cfg ->
  read_options osconfig_cfg = inr o ->
  install_fails cloud h e \/ (install_ok cloud h /\ load_fails h e) ->
  returned (handle name cfg cloud args h) = inl e /\
  persist_effects (trace (handle name cfg cloud args h)) = [].
Proof.
  intros Hc Hr Hfail.
  assert (exists t, prepare osconfig_cfg cloud h = Outcome t (inl e)) as [t Hp].
  { destruct Hfail as [Hi | [Hi Hl]].
    - eexists. apply (prepare_install_fails _ _ _ _ Hr _ Hi).
    - eexists. apply (prepare_load_fails _ _ _ _ Hr _ Hi Hl). }
  rewrite (handle_prepare _ _ _ _ _ _ Hc), (bind_err _ _ _ _ _ Hp). simpl.
  split; [reflexivity |].
  apply quiet_trace_persist_effects.
  pose proof (quiet_prepare osconfig_cfg cloud h) as Hq. rewrite Hp in Hq. exact Hq.
Qed.

Lemma failure_before_persist_witness :
  (returned (handle "cc_osconfig" local_example {| distro := distro_no_repo |} []
                    (host_bare (VDict ∅)))
     = inl (ProcessExecutionError "install failed") /\
   persist_effects (trace (handle "cc_osconfig" local_example
                                  {| distro := distro_no_repo |} []
                                  (host_bare (VDict ∅)))) = []) /\
  (returned (handle "cc_osconfig" local_example {| distro := distro_ok |} [] host_bad_json)
     = inl (ValueError "invalid JSON") /\
   persist_effects (trace (handle "cc_osconfig" local_example {| distro := distro_ok |} []
                                  host_bad_json)) = []).
Proof.
  split.
  - apply (failure_before_persist "cc_osconfig" local_example
             {| distro := distro_no_repo |} [] (host_bare (VDict ∅))
             (VDict {[ "local_management" := VInt 1 ]})
             (Options (VInt 1) VNone VNone VNone VNone VNone)).
    + reflexivity.
    + reflexivity.
    + left. split; reflexivity.
  - apply (failure_before_persist "cc_osconfig" local_example
             {| distro := distro_ok |} [] host_bad_json
             (VDict {[ "local_management" := VInt 1 ]})
             (Options (VInt 1) VNone VNone VNone VNone VNone)).
    + reflexivity.
    + reflexivity.
    + right. split; [left; reflexivity |].
      right. exists "not json". split; reflexivity.
Defined.

(** ** Order of the persist step *)

(** C9, as stated, fails: on a machine where the file cannot be written the
    run reaches the persist step and stops the service, the write raises,
    and the service is never started again.  The service and file effects
    of that run are stop and write only. *)
Lemma write_failure_leaves_service_stopped :
  In stop_event
     (trace (handle "cc_osconfig" local_example {| distro := distro_ok |} []
                    (host_read_only (VDict ∅)))) /\
  persist_effects
    (trace (handle "cc_osconfig" local_example {| distro := distro_ok |} []
                   (host_read_only (VDict ∅)))) =
    [stop_event; write_event (VDict {[ "LocalManagement" := VInt 1 ]})] /\
  ~ (exists config,
       persist_effects
         (trace (handle "cc_osconfig" local_example {| distro := distro_ok |} []
                        (host_read_only (VDict ∅)))) =
         [stop_event; write_event config; start_event]).
Proof.
  split; [| split].
  - vm_compute. tauto.
  - reflexivity.
  - intros [config Hc]. vm_compute in Hc. discriminate Hc.
Qed.

(** C9, amended.  A run that reaches the persist step (its trace holds the
    stop of the service) consists of a part without any service or file-write
    event, followed by the stop, then the write, then the start, each
    attempted only if the one before it returned: all three when the stop
    and the write return.  Whatever raises earlier (installation, load,
    merge) therefore raises before any stop. *)
Theorem persist_step_order (name : string) (cfg : gmap string value)
    (cloud : Cloud) (args : list string) (h : Host) :
  In stop_event (trace (handle name cfg cloud args h)) ->
  exists pre config,
    quiet_trace pre /\
    handle name cfg cloud args h =
      match distro_manage_service (distro cloud) "stop" "osconfig",
            host_write_json h OSCONFIG_CONFIGURATION_FILEPATH config with
      | Some e, _ => Outcome (pre ++ [stop_event]) (inl e)
      | None, Some e => Outcome (pre ++ [stop_event; write_event config]) (inl e)
      | None, None =>
          Outcome (pre ++ [stop_event; write_event config; start_event])
                  (answer (distro_manage_service (distro cloud) "start" "osconfig"))
      end.
Proof.
  intros Hin. destruct (cfg !! "osconfig") as [osconfig_cfg |] eqn:Hc.
  - rewrite (handle_prepare _ _ _ _ _ _ Hc) in *.
    pose proof (quiet_prepare osconfig_cfg cloud h) as Hq.
    destruct (prepare osconfig_cfg cloud h) as [pre [e | config]] eqn:Hp.
    + rewrite (bind_err _ _ _ _ _ Hp) in Hin.
      exfalso. exact (quiet_trace_no_stop _ Hq Hin).
    + exists pre, config. split; [exact Hq |].
      rewrite (bind_ok _ _ _ _ _ Hp), update_config_run.
      destruct (distro_manage_service (distro cloud) "stop" "osconfig");
        [reflexivity |].
      destruct (host_write_json h OSCONFIG_CONFIGURATION_FILEPATH config);
        reflexivity.
  - rewrite (handle_no_section _ _ _ _ _ Hc) in Hin.
    destruct Hin as [Hin | []]. discriminate Hin.
Qed.

Lemma persist_step_order_witness :
  exists pre config,
    quiet_trace pre /\
    handle "cc_osconfig" local_example {| distro := distro_ok |} [] (host_with (VDict ∅)) =
      Outcome (pre ++ [stop_event; write_event config; start_event]) (inr tt).
Proof.
  apply (persist_step_order "cc_osconfig" local_example {| distro := distro_ok |} []
           (host_with (VDict ∅))).
  vm_compute. tauto.
Defined.

(** ** A present but empty section *)

(** C10, as stated, fails twice.  A key that is present without a mapping
    under it ([osconfig:] alone, read as [None]) holds no truthy option, yet
    the run raises at line 84 and neither reads the file, nor writes it, nor
    touches the service.  And with [osconfig: {}] on a machine where the
    file cannot be written, the service is stopped and not started again. *)
Lemma present_section_not_rewritten :
  (dict_contains {[ "osconfig" := VNone ]} "osconfig" = true /\
   handle "cc_osconfig" {[ "osconfig" := VNone ]} {| distro := distro_ok |} []
          (host_with (VDict ∅)) =
     Outcome [] (inl (AttributeError "'NoneType' object has no attribute 'get'"))) /\
  handle "cc_osconfig" empty_section {| distro := distro_ok |} []
         (host_read_only (VDict ∅)) =
    Outcome [SubpWhich "osconfig"; LoadTextFile OSCONFIG_CONFIGURATION_FILEPATH;
             stop_event; write_event (VDict ∅)]
            (inl (OSError "read-only file system")).
Proof. repeat split. Qed.

(** C10, amended.  When the [osconfig] key holds a mapping in which no
    recognized option is truthy, the run is not the skip of the absent key:
    on every machine it begins with the search for the agent and is the
    installation check and the load followed by [update_config] on the
    loaded value.  When installation check, load, stop and write do not
    raise, the run reads the configuration file, stops the service, writes
    back the very value it loaded and starts the service. *)
Theorem empty_section_still_rewrites (name : string) (cfg : gmap string value)
    (cloud : Cloud) (args : list string) (h : Host)
    (sec : gmap string value) (o : options) :
  cfg !! "osconfig" = Some (VDict sec) ->
  read_options (VDict sec) = inr o ->
  no_truthy_option o ->
  handle name cfg cloud args h =
    bind (install_and_load cloud) (update_config (distro cloud)) h /\
  (exists rest : list event,
     trace (handle name cfg cloud args h) = SubpWhich "osconfig" :: rest) /\
  (forall mycfg : value,
     install_ok cloud h ->
     load_ok h mycfg ->
     distro_manage_service (distro cloud) "stop" "osconfig" = None ->
     host_write_json h OSCONFIG_CONFIGURATION_FILEPATH mycfg = None ->
     handle name cfg cloud args h =
       Outcome (install_trace h ++
                [LoadTextFile OSCONFIG_CONFIGURATION_FILEPATH;
                 stop_event; write_event mycfg; start_event])
               (answer (distro_manage_service (distro cloud) "start" "osconfig"))).
Proof.
  intros Hc Hr (Hl & Hg & _ & _ & Hcl & Hfl).
  assert (handle name cfg cloud args h =
            bind (install_and_load cloud) (update_config (distro cloud)) h) as Hrun.
  { rewrite (handle_prepare _ _ _ _ _ _ Hc). unfold bind at 1.
    rewrite (prepare_switches_off _ _ _ _ Hr Hl Hg Hcl Hfl). reflexivity. }
  split; [exact Hrun |]. split.
  - rewrite Hrun. unfold install_and_load. rewrite bind_assoc.
    rewrite (bind_ok _ _ h [SubpWhich "osconfig"] (host_which h "osconfig"))
      by reflexivity.
    simpl. eexists. reflexivity.
  - intros mycfg Hi Hload Hs Hw.
    apply (handle_success _ _ _ _ _ _ _ _ _ Hc Hr Hi Hload); try assumption.
    apply reconcile_switches_off; assumption.
Qed.

Lemma empty_section_still_rewrites_witness :
  handle "cc_osconfig" empty_section {| distro := distro_ok |} []
         (host_with (VDict {[ "Protocol" := VInt 2 ]})) =
    Outcome [SubpWhich "osconfig"; LoadTextFile OSCONFIG_CONFIGURATION_FILEPATH;
             stop_event; write_event (VDict {[ "Protocol" := VInt 2 ]}); start_event]
            (inr tt).
Proof.
  apply (empty_section_still_rewrites "cc_osconfig" empty_section
           {| distro := distro_ok |} [] (host_with (VDict {[ "Protocol" := VInt 2 ]}))
           ∅ (Options VNone VNone VNone VNone VNone VNone)).
  - reflexivity.
  - reflexivity.
  - repeat split.
  - left. reflexivity.
  - exists "<file text>". split; reflexivity.
  - reflexivity.
  - reflexivity.
Defined.

(** * Further properties of the module *)

(** ** Every run, case by case *)

(** A run on a document with an [osconfig] key ends in one of the seven
    ways of [run_shape]. *)
Lemma handle_run_shape (name : string) (cfg : gmap string value) (cloud : Cloud)
    (args : list string) (h : Host) (osconfig_cfg : value) :
  cfg !! "osconfig" = Some osconfig_cfg ->
  run_shape osconfig_cfg cloud h (handle name cfg cloud args h).
Proof.
  intros Hc. rewrite (handle_prepare _ _ _ _ _ _ Hc).
  destruct (read_options osconfig_cfg) as [e | o] eqn:Hr.
  { rewrite (bind_err _ _ _ _ _ (prepare_not_dict _ cloud h _ Hr)).
    apply run_bad_section, Hr. }
  assert (install_ok cloud h \/
          exists e, install_fails cloud h e) as [Hi | [e Hi]].
  { unfold install_ok, install_fails.
    destruct (found (host_which h "osconfig")); [left; left; reflexivity |].
    destruct (distro_install_packages (distro cloud) ["osconfig"]) as [e |];
      [right; exists e; split; reflexivity | left; right; reflexivity]. }
  2: { rewrite (bind_err _ _ _ _ _ (prepare_install_fails _ _ _ _ Hr _ Hi)).
       eapply run_install_fails; eassumption. }
  assert ((exists e, load_fails h e) \/ exists mycfg, load_ok h mycfg)
    as [[e Hl] | [mycfg Hl]].
  { unfold load_fails, load_ok.
    destruct (host_load_text_file h OSCONFIG_CONFIGURATION_FILEPATH)
      as [e | text] eqn:Ht; [left; exists e; left; reflexivity |].
    destruct (host_load_json h text) as [e | mycfg] eqn:Hj.
    - left. exists e. right. exists text. split; [reflexivity | exact Hj].
    - right. exists mycfg, text. split; [reflexivity | exact Hj]. }
  { rewrite (bind_err _ _ _ _ _ (prepare_load_fails _ _ _ _ Hr _ Hi Hl)).
    eapply run_load_fails; eassumption. }
  pose proof (prepare_loaded _ _ _ _ Hr _ Hi Hl) as Hp.
  destruct (reconcile mycfg o) as [e | config] eqn:Hm.
  { rewrite (bind_err _ _ _ _ _ Hp). eapply run_merge_fails; eassumption. }
  rewrite (bind_ok _ _ _ _ _ Hp), update_config_run.
  destruct (distro_manage_service (distro cloud) "stop" "osconfig") as [e |] eqn:Hs.
  { simpl. rewrite <- app_assoc. eapply run_stop_fails; eassumption. }
  destruct (host_write_json h OSCONFIG_CONFIGURATION_FILEPATH config) as [e |] eqn:Hw.
  { simpl. rewrite <- app_assoc. eapply run_write_fails; eassumption. }
  simpl. rewrite <- app_assoc. eapply run_start_reached; eassumption.
Qed.

(** ** More on the merge *)

Lemma overlay_idempotent (S : gmap string value) (o : options) :
  overlay (overlay S o) o = overlay S o.
Proof. by_lookup. Qed.

(** A merge that returns either ran on a dictionary, or assigned nothing. *)
Lemma reconcile_result_cases (mycfg config : value) (o : options) :
  reconcile mycfg o = inr config ->
  (exists S, mycfg = VDict S /\ config = VDict (overlay S o)) \/
  (config = mycfg /\ reconcile config o = inr config).
Proof.
  intros H. destruct mycfg as [| b | z | s | l | S].
  6: { left. exists S. rewrite reconcile_dict in H. split; congruence. }
  all: right; revert H; unfold reconcile;
    destruct (truthy (osconfig_localManagement_cfg o));
    destruct (truthy (osconfig_gitManagement_cfg o));
    destruct (truthy (osconfig_debugCommandLogging_cfg o));
    destruct (truthy (osconfig_debugFullLogging_cfg o));
    simpl; intros H; try discriminate H;
    injection H as <-; split; reflexivity.
Qed.

Lemma reconcile_twice (mycfg config : value) (o : options) :
  reconcile mycfg o = inr config -> reconcile config o = inr config.
Proof.
  intros H. destruct (reconcile_result_cases _ _ _ H) as [(S & -> & ->) | [_ H']].
  - rewrite reconcile_dict, overlay_idempotent. reflexivity.
  - exact H'.
Qed.

(** X9.  Merging the same options into the result of a merge changes
    nothing: the merge is idempotent, on whatever value was loaded. *)
Theorem reconcile_idempotent (mycfg config : value) (o : options) :
  reconcile mycfg o = inr config ->
  (let? again := reconcile mycfg o in reconcile again o) = inr config.
Proof.
  intros H. rewrite H. simpl.
  destruct (reconcile_result_cases _ _ _ H) as [(S & -> & ->) | [_ H']].
  - rewrite reconcile_dict, overlay_idempotent. reflexivity.
  - exact H'.
Qed.

Lemma reconcile_idempotent_witness :
  (let? again := reconcile (VDict {[ "GitBranch" := VStr "old" ]}) git_options in
   reconcile again git_options) =
    inr (VDict {[ "GitMananagement" := VInt 1;
                  "GitRepositoryUrl" := VStr "https://example.com/r";
                  "GitBranch" := VStr "main" ]}).
Proof.
  apply (reconcile_idempotent (VDict {[ "GitBranch" := VStr "old" ]})).
  reflexivity.
Defined.

(** X11.  The merge never removes a key, and the only keys it can add are
    the six that lines 105-115 assign. *)
Theorem reconcile_domain (S R : gmap string value) (o : options) :
  reconcile (VDict S) o = inr (VDict R) ->
  dom S ⊆ dom R /\ dom R ⊆ dom S ∪ list_to_set assigned_keys.
Proof.
  rewrite reconcile_dict. intros H. injection H as <-.
  split; intros k; rewrite ?elem_of_union, ?elem_of_list_to_set, !elem_of_dom;
    unfold overlay, assigned_keys; rewrite ?elem_of_cons;
    repeat match goal with
           | |- context [if ?b then _ else _] => destruct b
           end;
    rewrite ?lookup_insert_is_Some'; intuition auto.
Qed.

Lemma reconcile_domain_witness :
  dom ({[ "Protocol" := VInt 2 ]} : gmap string value) ⊆
    dom (overlay {[ "Protocol" := VInt 2 ]} git_options) /\
  dom (overlay {[ "Protocol" := VInt 2 ]} git_options) ⊆
    dom ({[ "Protocol" := VInt 2 ]} : gmap string value) ∪ list_to_set assigned_keys.
Proof.
  apply (reconcile_domain {[ "Protocol" := VInt 2 ]} _ git_options).
  apply reconcile_dict.
Defined.

(** X12.  A key that lines 105-115 do not assign has, after the merge, the
    binding it had before (or none, if it had none). *)
Theorem unassigned_keys_keep_binding (S R : gmap string value) (o : options)
    (k : string) :
  reconcile (VDict S) o = inr (VDict R) ->
  k ∉ assigned_keys ->
  R !! k = S !! k.
Proof.
  rewrite reconcile_dict. intros H Hk. injection H as <-.
  unfold assigned_keys in Hk. rewrite !not_elem_of_cons in Hk.
  destruct Hk as (H1 & H2 & H3 & H4 & H5 & H6 & _).
  apply overlay_other_key; assumption.
Qed.

Lemma unassigned_keys_keep_binding_witness :
  overlay {[ "GitManagement" := VInt 0; "Protocol" := VInt 2 ]} git_options
    !! "GitManagement" =
  ({[ "GitManagement" := VInt 0; "Protocol" := VInt 2 ]} : gmap string value)
    !! "GitManagement".
Proof.
  apply (unassigned_keys_keep_binding
           {[ "GitManagement" := VInt 0; "Protocol" := VInt 2 ]} _ git_options).
  - apply reconcile_dict.
  - unfold assigned_keys. rewrite !not_elem_of_cons.
    repeat split; try discriminate. apply not_elem_of_nil.
Defined.

(** X13.  [git_repository_url] and [git_branch] count only in the git
    branch: when [local_management] is truthy or [git_management] is falsy,
    the merge does not depend on them. *)
Theorem url_and_branch_need_git_branch (mycfg lm gm url br url' br' dcl dfl : value) :
  truthy lm = true \/ truthy gm = false ->
  reconcile mycfg (Options lm gm url br dcl dfl) =
  reconcile mycfg (Options lm gm url' br' dcl dfl).
Proof.
  intros H. unfold reconcile. simpl.
  destruct (truthy lm); [reflexivity |].
  destruct H as [H | ->]; [discriminate H | reflexivity].
Qed.

Lemma url_and_branch_need_git_branch_witness :
  reconcile (VDict ∅)
            (Options VNone VNone (VStr "https://example.com/r") (VStr "main") VNone VNone) =
  reconcile (VDict ∅) (Options VNone VNone VNone VNone VNone VNone).
Proof.
  apply (url_and_branch_need_git_branch (VDict ∅) VNone VNone).
  right. reflexivity.
Defined.

(** X14.  The management step and the logging step are independent: the
    merge of an options record is the merge of its management part followed
    by the merge of its logging part, and also the other way round. *)
Theorem management_and_logging_commute (mycfg : value) (o : options) :
  reconcile mycfg o =
    (let? m := reconcile mycfg (management_only o) in reconcile m (logging_only o)) /\
  reconcile mycfg o =
    (let? m := reconcile mycfg (logging_only o) in reconcile m (management_only o)).
Proof.
  destruct mycfg as [| b | z | s | l | S].
  6: { rewrite !reconcile_dict. simpl. rewrite !reconcile_dict.
       split; do 2 f_equal; by_lookup. }
  all: unfold reconcile, management_only, logging_only; simpl;
    destruct (truthy (osconfig_localManagement_cfg o));
    destruct (truthy (osconfig_gitManagement_cfg o));
    destruct (truthy (osconfig_debugCommandLogging_cfg o));
    destruct (truthy (osconfig_debugFullLogging_cfg o));
    split; reflexivity.
Qed.

(** X15.  In the git branch the URL and the branch are copied as they are:
    ["GitRepositoryUrl"] and ["GitBranch"] are bound in the result even
    when the option is absent, and then they are bound to [None]. *)
Theorem git_branch_copies_url_and_branch (S R : gmap string value) (o : options) :
  truthy (osconfig_localManagement_cfg o) = false ->
  truthy (osconfig_gitManagement_cfg o) = true ->
  reconcile (VDict S) o = inr (VDict R) ->
  R !! "GitRepositoryUrl" = Some (osconfig_gitRepositoryUrl_cfg o) /\
  R !! "GitBranch" = Some (osconfig_gitBranch_cfg o).
Proof.
  intros Hl Hg. rewrite reconcile_dict. intros H. injection H as <-.
  destruct (overlay_git S o Hl Hg) as (_ & H2 & H3 & _). split; assumption.
Qed.

Lemma git_branch_copies_url_and_branch_witness :
  overlay {[ "GitBranch" := VStr "old" ]}
          (Options VNone (VInt 1) VNone VNone VNone VNone) !! "GitRepositoryUrl"
    = Some VNone /\
  overlay {[ "GitBranch" := VStr "old" ]}
          (Options VNone (VInt 1) VNone VNone VNone VNone) !! "GitBranch"
    = Some VNone.
Proof.
  apply (git_branch_copies_url_and_branch {[ "GitBranch" := VStr "old" ]} _
           (Options VNone (VInt 1) VNone VNone VNone VNone)).
  - reflexivity.
  - reflexivity.
  - apply reconcile_dict.
Defined.

(** X16.  One merge never applies both management modes: either
    ["LocalManagement"] keeps its binding, or the three keys of the git
    branch keep theirs. *)
Theorem management_modes_exclusive (S : gmap string value) (o : options) :
  exists R, reconcile (VDict S) o = inr (VDict R) /\
    (R !! "LocalManagement" = S !! "LocalManagement" \/
     (R !! "GitMananagement" = S !! "GitMananagement" /\
      R !! "GitRepositoryUrl" = S !! "GitRepositoryUrl" /\
      R !! "GitBranch" = S !! "GitBranch")).
Proof.
  exists (overlay S o). split; [apply reconcile_dict |].
  destruct (truthy (osconfig_localManagement_cfg o)) eqn:Hl.
  - right. repeat split; apply overlay_local_other_key; solve [exact Hl | discriminate].
  - left. unfold overlay. rewrite Hl. by_cases.
Qed.

(** ** More on whole runs *)

(** X1.  A section that is not a mapping (for instance [osconfig:] with
    nothing under it, which YAML reads as [None]) makes [handle] raise
    [AttributeError] at its first [get], before any call to the outside. *)
Theorem non_mapping_section_raises (name : string) (cfg : gmap string value)
    (cloud : Cloud) (args : list string) (h : Host) (osconfig_cfg : value) :
  cfg !! "osconfig" = Some osconfig_cfg ->
  (forall d, osconfig_cfg <> VDict d) ->
  exists msg, handle name cfg cloud args h = Outcome [] (inl (AttributeError msg)).
Proof.
  intros Hc Hn. rewrite (handle_prepare _ _ _ _ _ _ Hc).
  destruct osconfig_cfg as [| b | z | s | l | d];
    try (eexists; apply bind_err, prepare_not_dict; reflexivity).
  destruct (Hn d eq_refl).
Qed.

Lemma non_mapping_section_raises_witness :
  exists msg,
    handle "cc_osconfig" {[ "osconfig" := VList [VStr "local_management"] ]}
           {| distro := distro_ok |} [] (host_bare (VDict ∅)) =
      Outcome [] (inl (AttributeError msg)).
Proof.
  apply (non_mapping_section_raises "cc_osconfig"
           {[ "osconfig" := VList [VStr "local_management"] ]}
           {| distro := distro_ok |} [] (host_bare (VDict ∅))
           (VList [VStr "local_management"])).
  - reflexivity.
  - intros d H. discriminate H.
Defined.

(** X2.  A run depends on the document only through the six recognized
    keys of its [osconfig] section: two documents whose sections agree on
    them give the same events and the same return, whatever else the
    documents and the sections hold and whatever [name] and [args] are. *)
Theorem run_reads_six_keys (name name' : string) (cfg cfg' : gmap string value)
    (cloud : Cloud) (args args' : list string) (h : Host)
    (sec sec' : gmap string value) :
  cfg !! "osconfig" = Some (VDict sec) ->
  cfg' !! "osconfig" = Some (VDict sec') ->
  (forall k, k ∈ recognized_keys -> sec !! k = sec' !! k) ->
  handle name cfg cloud args h = handle name' cfg' cloud args' h.
Proof.
  intros Hc Hc' Hk.
  rewrite (handle_prepare _ _ _ _ _ _ Hc), (handle_prepare _ _ _ _ _ _ Hc').
  unfold prepare. rewrite (read_options_agree _ _ Hk). reflexivity.
Qed.

Lemma run_reads_six_keys_witness :
  handle "cc_osconfig"
         {[ "osconfig" := VDict {[ "local_management" := VInt 1;
                                   "localManagement" := VInt 0 ]} ]}
         {| distro := distro_ok |} [] (host_with (VDict ∅)) =
  handle "osconfig"
         {[ "osconfig" := VDict {[ "local_management" := VInt 1 ]};
            "hostname" := VStr "node1" ]}
         {| distro := distro_ok |} ["always"] (host_with (VDict ∅)).
Proof.
  apply (run_reads_six_keys "cc_osconfig" "osconfig" _ _ _ [] ["always"] _
           {[ "local_management" := VInt 1; "localManagement" := VInt 0 ]}
           {[ "local_management" := VInt 1 ]}).
  - reflexivity.
  - reflexivity.
  - intros k Hk. unfold recognized_keys in Hk.
    rewrite !elem_of_cons, elem_of_nil in Hk.
    destruct Hk as [-> | [-> | [-> | [-> | [-> | [-> | []]]]]]]; reflexivity.
Defined.

(** X3.  With a readable section, the package is installed in a run exactly
    when [subp.which] does not find the agent. *)
Theorem installs_exactly_when_missing (name : string) (cfg : gmap string value)
    (cloud : Cloud) (args : list string) (h : Host)
    (osconfig_cfg : value) (o : options) :
  cfg !! "osconfig" = Some osconfig_cfg ->
  read_options osconfig_cfg = inr o ->
  In (InstallPackages ["osconfig"]) (trace (handle name cfg cloud args h)) <->
  found (host_which h "osconfig") = false.
Proof.
  intros Hc Hr.
  destruct (handle_run_shape name cfg cloud args h _ Hc)
    as [e He | ? e _ [Hw _] | | | | |]; simpl.
  - congruence.
  - rewrite Hw. intuition auto.
  - in_trace h.
  - in_trace h.
  - in_trace h.
  - in_trace h.
  - in_trace h.
Qed.

Lemma installs_exactly_when_missing_witness :
  In (InstallPackages ["osconfig"])
     (trace (handle "cc_osconfig" local_example {| distro := distro_ok |} []
                    (host_bare (VDict ∅)))) <->
  found (host_which (host_bare (VDict ∅)) "osconfig") = false.
Proof.
  apply (installs_exactly_when_missing "cc_osconfig" local_example
           {| distro := distro_ok |} [] (host_bare (VDict ∅))
           (VDict {[ "local_management" := VInt 1 ]})
           (Options (VInt 1) VNone VNone VNone VNone VNone)).
  - reflexivity.
  - reflexivity.
Defined.

(** X4.  When the installation raises, the run ends there: the
    configuration file is not even read. *)
Theorem install_failure_skips_read (name : string) (cfg : gmap string value)
    (cloud : Cloud) (args : list string) (h : Host)
    (osconfig_cfg : value) (o : options) (e : exn) :
  cfg !! "osconfig" = Some osconfig_cfg ->
  read_options osconfig_cfg = inr o ->
  install_fails cloud h e ->
  handle name cfg cloud args h =
    Outcome [SubpWhich "osconfig"; InstallPackages ["osconfig"]] (inl e).
Proof.
  intros Hc Hr Hi. rewrite (handle_prepare _ _ _ _ _ _ Hc).
  apply bind_err, (prepare_install_fails _ _ _ _ Hr _ Hi).
Qed.

Lemma install_failure_skips_read_witness :
  handle "cc_osconfig" git_example {| distro := distro_no_repo |} []
         (host_bare (VDict ∅)) =
    Outcome [SubpWhich "osconfig"; InstallPackages ["osconfig"]]
            (inl (ProcessExecutionError "install failed")).
Proof.
  apply (install_failure_skips_read "cc_osconfig" git_example
           {| distro := distro_no_repo |} [] (host_bare (VDict ∅))
           (VDict {[ "git_management" := VInt 1;
                     "git_repository_url" := VStr "https://example.com/r";
                     "git_branch" := VStr "main" ]})
           git_options).
  - reflexivity.
  - reflexivity.
  - split; reflexivity.
Defined.

(** X5.  Whatever the document and the machine, the trace of a run is either
    the single log record of the skip, or an initial segment of the
    pipeline: search, installation if the search fails, read of the
    configuration file, stop, write of that file, start.  So a run makes each
    call at most once, in this order, and touches no other file, package or
    service. *)
Theorem trace_within_pipeline (name : string) (cfg : gmap string value)
    (cloud : Cloud) (args : list string) (h : Host) :
  trace (handle name cfg cloud args h) =
    [LogInfo "Skipping module named %s, no 'osconfig' key in configuration" [name]] \/
  exists (config : value) (rest : list event),
    pipeline h config = (trace (handle name cfg cloud args h) ++ rest)%list.
Proof.
  destruct (cfg !! "osconfig") as [osconfig_cfg |] eqn:Hc.
  2: { left. rewrite (handle_no_section _ _ _ _ _ Hc). reflexivity. }
  right.
  destruct (handle_run_shape name cfg cloud args h _ Hc)
    as [e He | o e _ [Hw _] | | | ? ? config | ? ? config | ? ? config]; simpl.
  - exists VNone, (pipeline h VNone). reflexivity.
  - exists VNone. unfold pipeline, install_trace. rewrite Hw. eexists. reflexivity.
  - exists VNone. unfold pipeline. eexists. rewrite <- app_assoc. reflexivity.
  - exists VNone. unfold pipeline. eexists. rewrite <- app_assoc. reflexivity.
  - exists config. unfold pipeline. eexists. rewrite <- app_assoc. reflexivity.
  - exists config. unfold pipeline. eexists. rewrite <- app_assoc. reflexivity.
  - exists config, []. rewrite app_nil_r. reflexivity.
Qed.

(** X6.  When [handle] returns normally on a document with an [osconfig]
    key, every call of the pipeline was made: the value written is the
    merge of the options read from the section into the value loaded, and
    the service was started again. *)
Theorem normal_return_means_applied (name : string) (cfg : gmap string value)
    (cloud : Cloud) (args : list string) (h : Host) (osconfig_cfg : value) :
  cfg !! "osconfig" = Some osconfig_cfg ->
  returned (handle name cfg cloud args h) = inr tt ->
  exists o mycfg config,
    read_options osconfig_cfg = inr o /\
    load_ok h mycfg /\
    reconcile mycfg o = inr config /\
    trace (handle name cfg cloud args h) = pipeline h config /\
    distro_manage_service (distro cloud) "start" "osconfig" = None.
Proof.
  intros Hc.
  destruct (handle_run_shape name cfg cloud args h _ Hc)
    as [| | | | | | o mycfg config Hr Hi Hl Hm Hs Hw]; simpl; try discriminate.
  intros Hret. exists o, mycfg, config. repeat split; try assumption.
  destruct (distro_manage_service (distro cloud) "start" "osconfig");
    [discriminate Hret | reflexivity].
Qed.

Lemma normal_return_means_applied_witness :
  exists o mycfg config,
    read_options (VDict {[ "local_management" := VInt 1 ]}) = inr o /\
    load_ok (host_with (VDict ∅)) mycfg /\
    reconcile mycfg o = inr config /\
    trace (handle "cc_osconfig" local_example {| distro := distro_ok |} []
                  (host_with (VDict ∅))) = pipeline (host_with (VDict ∅)) config /\
    distro_manage_service distro_ok "start" "osconfig" = None.
Proof.
  apply (normal_return_means_applied "cc_osconfig" local_example
           {| distro := distro_ok |} [] (host_with (VDict ∅))
           (VDict {[ "local_management" := VInt 1 ]})).
  - reflexivity.
  - reflexivity.
Defined.

(** X7.  When the stop of the service raises, no run writes the
    configuration file. *)
Theorem stop_failure_prevents_write (name : string) (cfg : gmap string value)
    (cloud : Cloud) (args : list string) (h : Host) (e : exn) :
  distro_manage_service (distro cloud) "stop" "osconfig" = Some e ->
  forall path data, ~ In (WriteJson path data) (trace (handle name cfg cloud args h)).
Proof.
  intros Hs path data.
  destruct (cfg !! "osconfig") as [osconfig_cfg |] eqn:Hc.
  2: { rewrite (handle_no_section _ _ _ _ _ Hc). simpl.
       intros [H | []]. discriminate H. }
  destruct (handle_run_shape name cfg cloud args h _ Hc)
    as [| | | | | |]; simpl; try congruence;
    solve [intuition discriminate | in_trace h].
Qed.

Lemma stop_failure_prevents_write_witness :
  ~ In (write_event (VDict {[ "LocalManagement" := VInt 1 ]}))
       (trace (handle "cc_osconfig" local_example {| distro := distro_no_stop |} []
                      (host_with (VDict ∅)))).
Proof.
  apply (stop_failure_prevents_write "cc_osconfig" local_example
           {| distro := distro_no_stop |} [] (host_with (VDict ∅))
           (ProcessExecutionError "stop failed")).
  reflexivity.
Defined.

(** X8.  When nothing raises up to the write, the file receives the merge
    of the options into the loaded value, between the stop and the start,
    and [handle] returns or raises as the start does: if the start raises,
    the new configuration is already on disk. *)
Theorem merged_config_written_then_start (name : string) (cfg : gmap string value)
    (cloud : Cloud) (args : list string) (h : Host)
    (osconfig_cfg : value) (o : options) (mycfg config : value) :
  cfg !! "osconfig" = Some osconfig_cfg ->
  read_options osconfig_cfg = inr o ->
  install_ok cloud h ->
  load_ok h mycfg ->
  reconcile mycfg o = inr config ->
  distro_manage_service (distro cloud) "stop" "osconfig" = None ->
  host_write_json h OSCONFIG_CONFIGURATION_FILEPATH config = None ->
  handle name cfg cloud args h =
    Outcome (pipeline h config)
            (answer (distro_manage_service (distro cloud) "start" "osconfig")).
Proof. apply handle_success. Qed.

Lemma merged_config_written_then_start_witness :
  handle "cc_osconfig" local_example {| distro := distro_no_start |} []
         (host_with (VDict {[ "Protocol" := VInt 2 ]})) =
    Outcome [SubpWhich "osconfig"; LoadTextFile OSCONFIG_CONFIGURATION_FILEPATH;
             stop_event;
             write_event (VDict {[ "LocalManagement" := VInt 1; "Protocol" := VInt 2 ]});
             start_event]
            (inl (ProcessExecutionError "start failed")).
Proof.
  apply (merged_config_written_then_start "cc_osconfig" local_example
           {| distro := distro_no_start |} []
           (host_with (VDict {[ "Protocol" := VInt 2 ]}))
           (VDict {[ "local_management" := VInt 1 ]})
           (Options (VInt 1) VNone VNone VNone VNone VNone)
           (VDict {[ "Protocol" := VInt 2 ]})).
  - reflexivity.
  - reflexivity.
  - left. reflexivity.
  - exists "<file text>". split; reflexivity.
  - reflexivity.
  - reflexivity.
  - reflexivity.
Defined.

(** X10.  Applying the same document again is idempotent: if a run wrote
    [config], then a later run, on a machine whose file holds [config] and
    on which installation check, load, stop and write do not raise, writes
    [config] again.  The two runs have each their own machine and their own
    distribution object. *)
Theorem second_run_rewrites_same_config (name : string) (cfg : gmap string value)
    (cloud1 cloud2 : Cloud) (args : list string) (h1 h2 : Host)
    (osconfig_cfg config : value) :
  cfg !! "osconfig" = Some osconfig_cfg ->
  In (write_event config) (trace (handle name cfg cloud1 args h1)) ->
  install_ok cloud2 h2 ->
  load_ok h2 config ->
  distro_manage_service (distro cloud2) "stop" "osconfig" = None ->
  host_write_json h2 OSCONFIG_CONFIGURATION_FILEPATH config = None ->
  handle name cfg cloud2 args h2 =
    Outcome (pipeline h2 config)
            (answer (distro_manage_service (distro cloud2) "start" "osconfig")).
Proof.
  intros Hc Hin Hi2 Hl2 Hs2 Hw2.
  assert (exists o mycfg,
            read_options osconfig_cfg = inr o /\ reconcile mycfg o = inr config)
    as (o & mycfg & Hr & Hm).
  { revert Hin.
    destruct (handle_run_shape name cfg cloud1 args h1 _ Hc)
      as [| | | | | o mycfg config' e Hr Hi Hl Hm Hs Hw
              | o mycfg config' Hr Hi Hl Hm Hs Hw]; simpl; intros Hin.
    - tauto.
    - unfold write_event in Hin. intuition discriminate.
    - in_trace h1.
    - in_trace h1.
    - in_trace h1.
    - exists o, mycfg. assert (config' = config) as <- by in_trace h1. auto.
    - exists o, mycfg. assert (config' = config) as <- by in_trace h1. auto. }
  apply (handle_success _ _ _ _ _ _ _ _ _ Hc Hr Hi2 Hl2 (reconcile_twice _ _ _ Hm) Hs2 Hw2).
Qed.

(** The first run on a machine with an empty file and a working service
    manager; the second on a machine that holds what the first wrote and
    whose service manager stops the agent but cannot start it. *)
Lemma second_run_rewrites_same_config_witness :
  handle "cc_osconfig" local_example {| distro := distro_no_start |} []
         (host_with (VDict {[ "LocalManagement" := VInt 1 ]})) =
    Outcome (pipeline (host_with (VDict {[ "LocalManagement" := VInt 1 ]}))
                      (VDict {[ "LocalManagement" := VInt 1 ]}))
            (inl (ProcessExecutionError "start failed")).
Proof.
  apply (second_run_rewrites_same_config "cc_osconfig" local_example
           {| distro := distro_ok |} {| distro := distro_no_start |} []
           (host_with (VDict ∅))
           (host_with (VDict {[ "LocalManagement" := VInt 1 ]}))
           (VDict {[ "local_management" := VInt 1 ]})
           (VDict {[ "LocalManagement" := VInt 1 ]})).
  - reflexivity.
  - vm_compute. tauto.
  - left. reflexivity.
  - exists "<file text>". split; reflexivity.
  - reflexivity.
  - reflexivity.
Defined.

(** X17.  A load that raises ends the run after the read, and nothing is
    undone: when the agent was missing, its package has been installed by
    then. *)
Theorem load_failure_keeps_installation (name : string) (cfg : gmap string value)
    (cloud : Cloud) (args : list string) (h : Host)
    (osconfig_cfg : value) (o : options) (e : exn) :
  cfg !! "osconfig" = Some osconfig_cfg ->
  read_options osconfig_cfg = inr o ->
  install_ok cloud h ->
  load_fails h e ->
  handle name cfg cloud args h =
    Outcome (install_trace h ++ [LoadTextFile OSCONFIG_CONFIGURATION_FILEPATH])
            (inl e).
Proof.
  intros Hc Hr Hi Hl. rewrite (handle_prepare _ _ _ _ _ _ Hc).
  apply bind_err, (prepare_load_fails _ _ _ _ Hr _ Hi Hl).
Qed.

Lemma load_failure_keeps_installation_witness :
  handle "cc_osconfig" local_example {| distro := distro_ok |} []
         {| host_which := fun _ => None;
            host_load_text_file := fun _ => inl (OSError "No such file or directory");
            host_load_json := fun _ => inr (VDict ∅);
            host_write_json := fun _ _ => None |} =
    Outcome [SubpWhich "osconfig"; InstallPackages ["osconfig"];
             LoadTextFile OSCONFIG_CONFIGURATION_FILEPATH]
            (inl (OSError "No such file or directory")).
Proof.
  apply (load_failure_keeps_installation "cc_osconfig" local_example
           {| distro := distro_ok |} []
           {| host_which := fun _ => None;
              host_load_text_file := fun _ => inl (OSError "No such file or directory");
              host_load_json := fun _ => inr (VDict ∅);
              host_write_json := fun _ _ => None |}
           (VDict {[ "local_management" := VInt 1 ]})
           (Options (VInt 1) VNone VNone VNone VNone VNone)).
  - reflexivity.
  - reflexivity.
  - right. reflexivity.
  - left. reflexivity.
Defined.
